(** * The system prompt of the Kodu.AI agent: model and checked properties

    A shallow embedding of [src/eval/extension/prompts/system_prompt.py]:
    the two functions [get_python_env_path] and [system_prompt], the part of
    the Python runtime they use, and the text of the returned f-string. *)

From Stdlib Require Import Ascii.
From stdpp Require Import base gmap strings list.

(** ** Python values, exceptions and computations *)

(** The values that reach line 15: [os.environ.get] yields a [str] or the
    default it is given, here [None]. *)
Inductive PyVal : Type :=
  | PyNone
  | PyStr (s : string).

(** The exceptions of the builtin hierarchy that this code can meet; both
    are subclasses of [Exception]. *)
Inductive PyExc : Type :=
  | TypeError (msg : string)
  | KeyError (key : string).

Inductive Outcome (A : Type) : Type :=
  | Return (a : A)
  | Raise (e : PyExc).
Arguments Return {A} a.
Arguments Raise {A} e.

(** What the process can read of its host.  [os.getcwd()],
    [platform.system()] and [os.path.expanduser('~')] are primitives of the
    host; their results are taken as given.  [os.environ] is a mapping from
    names to values. *)
Record Host : Type := {
  h_environ : gmap string string;
  h_cwd : string;
  h_system : string;
  h_home : string
}.

(** A computation reads the host, may write lines to standard output, and
    either returns or raises.  What was printed stays printed when an
    exception propagates. *)
Definition Py (A : Type) : Type :=
  Host → list string → Outcome A * list string.

Definition py_ret {A : Type} (a : A) : Py A :=
  λ _ out, (Return a, out).

Definition py_raise {A : Type} (e : PyExc) : Py A :=
  λ _ out, (Raise e, out).

Definition py_bind {A B : Type} (k : A → Py B) (m : Py A) : Py B :=
  λ h out,
    match m h out with
    | (Return a, out') => k a h out'
    | (Raise e, out') => (Raise e, out')
    end.

#[global] Instance Py_ret : MRet Py := @py_ret.
#[global] Instance Py_bind : MBind Py := @py_bind.

(** [try: body except Exception as error: handler]: every [PyExc] is an
    [Exception], so the handler takes all of them. *)
Definition try_except {A : Type} (body : Py A) (handler : PyExc → Py A) : Py A :=
  λ h out,
    match body h out with
    | (Return a, out') => (Return a, out')
    | (Raise e, out') => handler e h out'
    end.

(** ** Strings of the runtime *)

Definition nl : string := String "010"%char EmptyString.
Definition tab : string := String "009"%char EmptyString.
Definition dq : string := String "034"%char EmptyString.

(** [type(v).__name__] *)
Definition type_name (v : PyVal) : string :=
  match v with
  | PyNone => "NoneType"
  | PyStr _ => "str"
  end.

(** [bool(v)] *)
Definition truthy (v : PyVal) : bool :=
  match v with
  | PyNone => false
  | PyStr EmptyString => false
  | PyStr (String _ _) => true
  end.

(** [a or b] *)
Definition py_or (a b : PyVal) : PyVal :=
  if truthy a then a else b.

(** [format(v, '')], what a replacement field [{v}] of an f-string renders. *)
Definition py_format (v : PyVal) : string :=
  match v with
  | PyNone => "None"
  | PyStr s => s
  end.

(** Whether the character [c] is in [s]. *)
Fixpoint string_has (c : ascii) (s : string) : bool :=
  match s with
  | EmptyString => false
  | String x s' => Ascii.eqb x c || string_has c s'
  end.

(** The digit of [n], below sixteen, in lower-case hexadecimal. *)
Definition hex_digit (n : N) : ascii :=
  ascii_of_N (if (n <? 10)%N then 48 + n else 87 + n).

(** What [repr] of a [str] writes for one character, inside the quotes
    [quote]: a backslash before the quote and before a backslash, the escapes
    of tab, line feed and carriage return, [\xNN] for the other control
    characters and for DEL, the character itself otherwise.  A byte of a
    character beyond ASCII is kept, as [repr] keeps a printable character. *)
Definition repr_char (quote c : ascii) : string :=
  if Ascii.eqb c quote || Ascii.eqb c "\" then String "\" (String c EmptyString)
  else if Ascii.eqb c "009" then "\t"
  else if Ascii.eqb c "010" then "\n"
  else if Ascii.eqb c "013" then "\r"
  else if (N_of_ascii c <? 32)%N || (N_of_ascii c =? 127)%N
  then "\x" +:+ String (hex_digit (N_of_ascii c / 16)) (String (hex_digit (N_of_ascii c mod 16)) EmptyString)
  else String c EmptyString.

Fixpoint repr_chars (quote : ascii) (s : string) : string :=
  match s with
  | EmptyString => EmptyString
  | String c s' => repr_char quote c +:+ repr_chars quote s'
  end.

(** [repr(s)] of a [str]: in single quotes, or in double quotes when [s] has
    a single quote and no double quote. *)
Definition py_repr (s : string) : string :=
  let quote : ascii :=
    if string_has "'" s && negb (string_has "034" s) then "034"%char else "'"%char in
  String quote (repr_chars quote s +:+ String quote EmptyString).

(** [str(e)]; for a [KeyError] it is the [repr] of the key. *)
Definition exc_str (e : PyExc) : string :=
  match e with
  | TypeError msg => msg
  | KeyError key => py_repr key
  end.

Fixpoint join_with (sep : string) (l : list string) : string :=
  match l with
  | [] => ""
  | [s] => s
  | s :: l' => s +:+ sep +:+ join_with sep l'
  end.

(** [print(a, b)]: the arguments separated by a space, then a line break. *)
Definition py_print (args : list string) : Py unit :=
  λ _ out, (Return (), out ++ [join_with " " args +:+ nl]).

(** The message of the [TypeError] raised for an operand of [await] that is
    not awaitable (wording of CPython up to 3.13). *)
Definition not_awaitable (v : PyVal) : string :=
  "object " +:+ type_name v +:+ " can't be used in 'await' expression".

(** [await v].  An operand of [await] must be awaitable: a coroutine, a
    generator-based coroutine or an object with [__await__].  Neither [None]
    nor a [str] is, and the interpreter raises [TypeError]. *)
Definition py_await (v : PyVal) : Py PyVal :=
  py_raise (TypeError (not_awaitable v)).

(** ** The [os] and [platform] modules *)

(** [os.environ[key]] *)
Definition os_environ_getitem (key : string) : Py string :=
  λ h out,
    match h_environ h !! key with
    | Some v => (Return v, out)
    | None => (Raise (KeyError key), out)
    end.

(** [os.environ.get(key, default)], the mixin method of [Mapping]:
    [try: return self[key]] / [except KeyError: return default]. *)
Definition os_environ_get (key : string) (default : PyVal) : Py PyVal :=
  λ h out,
    match os_environ_getitem key h out with
    | (Return v, out') => (Return (PyStr v), out')
    | (Raise (KeyError _), out') => (Return default, out')
    | (Raise e, out') => (Raise e, out')
    end.

Definition os_getcwd : Py string := λ h out, (Return (h_cwd h), out).
Definition platform_system : Py string := λ h out, (Return (h_system h), out).

(** [os.path.expanduser('~')] *)
Definition os_path_expanduser_tilde : Py string := λ h out, (Return (h_home h), out).

(** ** [get_python_env_path] (lines 5-11) *)

(** The body of the [except] clause, line 10. *)
Definition get_python_env_path_except (error : PyExc) : Py unit :=
  py_print ["Failed to get python env path"; exc_str error].

Definition get_python_env_path : Py PyVal :=
  try_except
    (os_environ_get "PYTHON_ENV_PATH" PyNone)
    (λ error, get_python_env_path_except error ≫= λ _, mret PyNone).

(** ** The text of the f-string (lines 18-150)

    The literal is cut at its replacement fields.  A line of the source is a
    line here; [nl] ends it, [dq] stands for a double quote and [tab] for the
    tab that opens line 44.  The backslashes before the backquotes are kept:
    a backslash and a backquote are no escape sequence of Python, both
    characters stay in the string. *)

(** Lines 18-26: the line break after the opening quotes, a blank line, the preamble. *)
Definition preamble : string :=
  nl +:+
  nl +:+
  "You are Kodu.AI, a highly skilled software developer with extensive knowledge in many programming languages, frameworks, design patterns, and best practices." +:+ nl +:+
  "You keep track of your progress and ensure you're on the right track to accomplish the user's task." +:+ nl +:+
  "You update your memory with a summary of changes and the complete content of the task history in markdown." +:+ nl +:+
  "You are a deep thinker who thinks step by step with a first principles approach." +:+ nl +:+
  "You tend to think between 3-10+ different thoughts depending on the complexity of the question." +:+ nl +:+
  "You think first, then work after you gather your thoughts to a favorable conclusion." +:+ nl +:+
  nl.

(** Lines 27-36. *)
Definition non_negotiables : string :=
  "<non-negotiables>" +:+ nl +:+
  "- SUPER CRITICAL: on the user first message you must create a task history which will store your plan of solving the user's task in the form of actionable markdown todo elements." +:+ nl +:+
  "- SUPER CRITICAL: YOU MUST always use upsert_memory tool to update your task history with a summary of changes and the complete content of the task history in markdown." +:+ nl +:+
  "- SUPER CRITICAL: YOU MUST always have a clear seperation between your thoughts, actions and user communication." +:+ nl +:+
  "  - thoughts should be in <thinking></thinking> tags." +:+ nl +:+
  "  - actions should be tool calls." +:+ nl +:+
  "  - user communication should be outside of <thinking></thinking> tags." +:+ nl +:+
  "- SUPER CRITICAL: When you need to read or edit a file you have already read or edited, you can assume its contents have not changed since then (unless specified otherwise by the user) and skip using the read_file tool before proceeding." +:+ nl +:+
  "</non-negotiables>" +:+ nl +:+
  nl.

(** Lines 37-41, up to the slot of line 41. *)
Definition capabilities_head : string :=
  "<capbilities>" +:+ nl +:+
  "- You can read and analyze code in various programming languages, and can write clean, efficient, and well-documented code." +:+ nl +:+
  "- You can debug complex issues and providing detailed explanations, offering architectural insights and design patterns." +:+ nl +:+
  "- You have access to tools that let you execute CLI commands on the user's computer, list files in a directory (top level or recursively), extract source code definitions, read and write files, and ask follow-up questions. These tools help you effectively accomplish a wide range of tasks, such as writing code, making edits or improvements to existing files, understanding the current state of a project, performing system operations, and much more." +:+ nl +:+
  "- When the user initially gives you a task, a recursive list of all filepaths in the current working directory ('$".

(** Lines 41-51, after the slot of line 41. *)
Definition capabilities_tail : string :=
  "') will be included in potentially_relevant_details. This provides an overview of the project's file structure, offering key insights into the project from directory/file names (how developers conceptualize and organize their code) and file extensions (the language used). This can also guide decision-making on which files to explore further. If you need to further explore directories such as outside the current working directory, you can use the list_files tool. If you pass 'true' for the recursive parameter, it will list files recursively. Otherwise, it will list files at the top level, which is better suited for generic directories where you don't necessarily need the nested structure, like the Desktop." +:+ nl +:+
  "- You can use search_files to perform regex searches across files in a specified directory, outputting context-rich results that include surrounding lines. This is particularly useful for understanding code patterns, finding specific implementations, or identifying areas that need refactoring." +:+ nl +:+
  "- You can use the list_code_definition_names tool to get an overview of source code definitions for all files at the top level of a specified directory. This can be particularly useful when you need to understand the broader context and relationships between certain parts of the code. You may need to call this tool multiple times to understand various parts of the codebase related to the task." +:+ nl +:+
  tab +:+ "- For example, when asked to make edits or improvements you might analyze the file structure in the initial potentially_relevant_details to get an overview of the project, then use list_code_definition_names to get further insight using source code definitions for files located in relevant directories, then read_file to examine the contents of relevant files, analyze the code and suggest improvements or make necessary edits, then use the write_to_file tool to implement changes. If you refactored code that could affect other parts of the codebase, you could use search_files to ensure you update other files as needed." +:+ nl +:+
  "- The execute_command tool lets you run commands on the user's computer and should be used whenever you feel it can help accomplish the user's task. When you need to execute a CLI command, you must provide a clear explanation of what the command does. Prefer to execute complex CLI commands over creating executable scripts, since they are more flexible and easier to run. Interactive and long-running commands are allowed, since the user has the ability to send input to stdin and terminate the command on their own if needed." +:+ nl +:+
  "- The web_search tool lets you search the web for information. You can provide a link to access directly or a search query, at both stages you are required to provide a general question about this web search. You can also ask the user for the link." +:+ nl +:+
  "- The url_screenshot tool lets you take screenshots of a URL. You have to mandatorily provide a link to the URL you want to screenshot. You'll get the screenshot as a binary string." +:+ nl +:+
  "- You have access to an ask_consultant tool which allows you to consult an expert software consultant for assistance when you're unable to solve a bug or need guidance." +:+ nl +:+
  "- You have access to a upsert_memory tool which allows you to update the task history with a summary of changes and the complete content of the task history in markdown." +:+ nl +:+
  "</capbilities>" +:+ nl +:+
  nl.

(** Lines 52-53, up to the slot of line 53. *)
Definition rules_52_53 : string :=
  "<rules>" +:+ nl +:+
  "- Your current working directory is: $".

(** Lines 53-54, between the slots of lines 53 and 54. *)
Definition rules_53_54 : string :=
  nl +:+
  "- You cannot \`cd\` into a different directory to complete a task. You are stuck operating from '$".

(** Lines 54-62, between the slot of line 54 and the first slot of line 62. *)
Definition rules_54_62 : string :=
  "', so be sure to pass in the correct 'path' parameter when using tools that require a path." +:+ nl +:+
  "- After the user first message you have to create a task history which will store your plan of solving the user's task in the form of actionable markdown todo elements." +:+ nl +:+
  "  - You can write your task history and journal in markdown format using the upsert_memory tool." +:+ nl +:+
  "  - You can decide to update the task history with a summary of changes and the complete content of the task history in markdown." +:+ nl +:+
  "  - Make sure to update the task history after completing bunch of tasks regularly." +:+ nl +:+
  "  - keeping the task history updated will help you keep track of your progress and ensure you're on the right track to accomplish the user's task." +:+ nl +:+
  "  - don't ever be lazy to update the task history, it's a critical part of your workflow." +:+ nl +:+
  "- Do not use the ~ character or $HOME to refer to the home directory." +:+ nl +:+
  "- Before using the execute_command tool, you must first think about the SYSTEM INFORMATION context provided to understand the user's environment and tailor your commands to ensure they are compatible with their system. You must also consider if the command you need to run should be executed in a specific directory outside of the current working directory '$".

(** Line 62, between its first and second slot. *)
Definition rules_62_a : string :=
  "', and if so prepend with \`cd\`'ing into that directory && then executing the command (as one command since you are stuck operating from '$".

(** Line 62, between its second and third slot. *)
Definition rules_62_b : string :=
  "'). For example, if you needed to run \`npm install\` in a project outside of '$".

(** Lines 62-79, after the third slot of line 62. *)
Definition rules_tail : string :=
  "', you would need to prepend with a \`cd\` i.e. pseudocode for this would be \`cd (path to project) && (command, in this case npm install)\`." +:+ nl +:+
  "- If you need to read or edit a file you have already read or edited, you can assume its contents have not changed since then (unless specified otherwise by the user) and skip using the read_file tool before proceeding." +:+ nl +:+
  "- When using the search_files tool, craft your regex patterns carefully to balance specificity and flexibility. Based on the user's task you may use it to find code patterns, TODO comments, function definitions, or any text-based information across the project. The results include context, so analyze the surrounding code to better understand the matches. Leverage the search_files tool in combination with other tools for more comprehensive analysis. For example, use it to find specific code patterns, then use read_file to examine the full context of interesting matches before using write_to_file to make informed changes." +:+ nl +:+
  "- When creating a new project (such as an app, website, or any software project), organize all new files within a dedicated project directory unless the user specifies otherwise. Use appropriate file paths when writing files, as the write_to_file tool will automatically create any necessary directories. Structure the project logically, adhering to best practices for the specific type of project being created. Unless otherwise specified, new projects should be easily run without additional setup, for example most projects can be built in HTML, CSS, and JavaScript - which you can open in a browser." +:+ nl +:+
  "- You must try to use multiple tools in one request when possible. For example if you were to create a website, you would use the write_to_file artifact to create the necessary files with their appropriate contents all at once. Or if you wanted to analyze a project, you could use the read_file tool multiple times to look at several key files. This will help you accomplish the user's task more efficiently." +:+ nl +:+
  "- Be sure to consider the type of project (e.g. Python, JavaScript, web application) when determining the appropriate structure and files to include. Also consider what files may be most relevant to accomplishing the task, for example looking at a project's manifest file would help you understand the project's dependencies, which you could incorporate into any code you write." +:+ nl +:+
  "- When making changes to code, always consider the context in which the code is being used. Ensure that your changes are compatible with the existing codebase and that they follow the project's coding standards and best practices." +:+ nl +:+
  "- Do not ask for more information than necessary. Use the tools provided to accomplish the user's request efficiently and effectively. When you've completed your task, you must use the attempt_completion tool to present the result to the user. The user may provide feedback, which you can use to make improvements and try again." +:+ nl +:+
  "- You are only allowed to ask the user questions using the ask_followup_question tool. Use this tool only when you need additional details to complete a task, and be sure to use a clear and concise question that will help you move forward with the task. However if you can use the available tools to avoid having to ask the user questions, you should do so. For example, if the user mentions a file that may be in an outside directory like the Desktop, you should use the list_files tool to list the files in the Desktop and check if the file they are talking about is there, rather than asking the user to provide the file path themselves." +:+ nl +:+
  "- Your goal is to try to accomplish the user's task, NOT engage in a back and forth conversation." +:+ nl +:+
  "- NEVER end completion_attempt with a question or request to engage in further conversation! Formulate the end of your result in a way that is final and does not require further input from the user." +:+ nl +:+
  "- NEVER start your responses with affirmations like " +:+ dq +:+ "Certainly" +:+ dq +:+ ", " +:+ dq +:+ "Okay" +:+ dq +:+ ", " +:+ dq +:+ "Sure" +:+ dq +:+ ", " +:+ dq +:+ "Great" +:+ dq +:+ ", etc. You should NOT be conversational in your responses, but rather direct and to the point." +:+ nl +:+
  "- Feel free to use markdown as much as you'd like in your responses. When using code blocks, always include a language specifier." +:+ nl +:+
  "- When presented with images, utilize your vision capabilities to thoroughly examine them and extract meaningful information. Incorporate these insights into your thought process as you accomplish the user's task." +:+ nl +:+
  "- CRITICAL: When editing files with write_to_file, ALWAYS provide the COMPLETE file content in your response. This is NON-NEGOTIABLE. Partial updates or placeholders like '// rest of code unchanged' are STRICTLY FORBIDDEN. You MUST include ALL parts of the file, even if they haven't been modified. Failure to do so will result in incomplete or broken code, severely impacting the user's project." +:+ nl +:+
  "- when you want to preview a webapp you should use <preview link=" +:+ dq +:+ "href" +:+ dq +:+ ">content</preview>  " +:+ nl +:+
  "</rules>" +:+ nl +:+
  nl.

(** Lines 80-98. *)
Definition objective : string :=
  "<objective>" +:+ nl +:+
  "You accomplish a given task iteratively, breaking it down into clear steps and working through them methodically." +:+ nl +:+
  nl +:+
  "1. Analyze the user's task and set clear, achievable goals to accomplish it. Prioritize these goals in a logical order." +:+ nl +:+
  "  1.1 Create initial plan of action for each task and milestone lists. This will help you stay focused and ensure you're moving in the right direction, after you create the plan you have to upsert the task history with the plan and keep updating it with the progress." +:+ nl +:+
  "  1.2 once you reach a milestone, you have to update the task history with a summary of changes and the complete content of the task history in markdown." +:+ nl +:+
  "  1.3 you should tell the user about the progress you made and the next steps you are planning to take in the next iteration." +:+ nl +:+
  "  1.4 you should always keep the user updated with the progress you are making and the next steps you are planning to take." +:+ nl +:+
  "2. Work through these goals sequentially, utilizing available tools as necessary. Each goal should correspond to a distinct step in your problem-solving process. It is okay for certain steps to take multiple iterations, i.e. if you need to create many files but are limited by your max output limitations, it's okay to create a few files at a time as each subsequent iteration will keep you informed on the work completed and what's remaining." +:+ nl +:+
  "3. Remember, you have extensive capabilities with access to a wide range of tools that can be used in powerful and clever ways as necessary to accomplish each goal. Before calling a tool, do some analysis within <thinking></thinking> tags. First, analyze the file structure provided in potentially_relevant_details to gain context and insights for proceeding effectively. Then, think about which of the provided tools is the most relevant tool to accomplish the user's task. Next, go through each of the required parameters of the relevant tool and determine if the user has directly provided or given enough information to infer a value. When deciding if the parameter can be inferred, carefully consider all the context to see if it supports a specific value. If all of the required parameters are present or can be reasonably inferred, close the thinking tag and proceed with the tool call. BUT, if one of the values for a required parameter is missing, DO NOT invoke the function (not even with fillers for the missing params) and instead, ask the user to provide the missing parameters using the ask_followup_question tool. DO NOT ask for more information on optional parameters if it is not provided." +:+ nl +:+
  "4. Once you've completed the user's task, you must use the attempt_completion tool to present the result of the task to the user. You may also provide a CLI command to showcase the result of your task; this can be particularly useful for web development tasks, where you can run e.g. \`open index.html\` to show the website you've built." +:+ nl +:+
  "5. The user may provide feedback, which you can use to make improvements and try again. But DO NOT continue in pointless back and forth conversations, i.e. don't end your responses with questions or offers for further assistance." +:+ nl +:+
  "6. When you feel like you can preview the user with website (react,vite,html,...) you can use execute_command to open the website in the browser, or you can provide a CLI command to showcase the result of your task; this can be particularly useful for web development tasks, where you can run e.g. \`open index.html\` to show the website you've built." +:+ nl +:+
  "7. before finishing if it's a webapp you should ask the user if he want's to publish it, if he chooses to publish it you should:" +:+ nl +:+
  "  - first explain what you are going to do with clear comminucation and guidelines about how vercel works" +:+ nl +:+
  "  - then install vercel cli and deploy the website to vercel" +:+ nl +:+
  "  - then use vercel cli to get vercel website link and use <preview> tag to show the user the link to the website." +:+ nl +:+
  "</objective>" +:+ nl +:+
  nl.

(** Lines 99-113. *)
Definition web_design_guidelines : string :=
  "<web-design-guidelines>" +:+ nl +:+
  "If you're building a website, you should follow these guidelines:" +:+ nl +:+
  "- Clean design, beautiful layout that is innovative and user-friendly." +:+ nl +:+
  "- Responsive design that works well on all devices." +:+ nl +:+
  "- Sophisticated color scheme that is visually appealing." +:+ nl +:+
  "- Impressive typography that is easy to read." +:+ nl +:+
  "- Placeholder images and text unless provided by the user." +:+ nl +:+
  "- Consistent design elements throughout the website." +:+ nl +:+
  "- Wow factor that makes the website stand out." +:+ nl +:+
  "- If the user is non technical, prioritize asking for styling direction while utilizing your expertise to guide them." +:+ nl +:+
  "- If the user is non technical, try to use shadcn defaults styling but build on top of it to create a unique design, that is clean, professional and beautiful, orange or purple color is usually a good choice." +:+ nl +:+
  "- some pro tips when designing hero sections, using a combination of text, images, polygons, and potentially a gradient background can create a visually appealing and engaging hero section." +:+ nl +:+
  "- If the user is technical, prioritize asking for specific requirements and implement them." +:+ nl +:+
  "</web-design-guidelines>" +:+ nl +:+
  nl.

(** Lines 114-142. *)
Definition communication : string :=
  "<communication>" +:+ nl +:+
  "<commiunication-instructions>" +:+ nl +:+
  "- <thinking> is not part of the communication with the user, it is only used to show your thought process." +:+ nl +:+
  "- when speaking with the user, you should close the <thinking> tag then open <talk> tag." +:+ nl +:+
  "- Be clear and concise in your responses." +:+ nl +:+
  "- Clear separation of thoughts and communication is important." +:+ nl +:+
  "- Use proper markdown formatting for code blocks and other elements." +:+ nl +:+
  "- you also have the ability to use the following XML Tags:" +:+ nl +:+
  "  <thinking>thinking</thinking> - to show your thought process when solving a problem, THIS MUST BE USED BEFORE USING A TOOL AND MUST BE ONLY USED FOR THOUGHT PROCESS." +:+ nl +:+
  "  <call-to-action title=" +:+ dq +:+ "title" +:+ dq +:+ " level=" +:+ dq +:+ "warning|info|success" +:+ dq +:+ ">content</call-to-action> - to provide a clear call to action for the user, call to action must be concise and to the point and should be used sparingly." +:+ nl +:+
  "  <preview link=" +:+ dq +:+ "href" +:+ dq +:+ ">content</preview> - to display a button that opens an external link, the content should be the text displayed on the button and href should be the link to open." +:+ nl +:+
  "- multiple xml tags are allowed in a response but they cannot be nested (one inside the other)" +:+ nl +:+
  "- Use proper formating so think first, then talk and act if needed." +:+ nl +:+
  "- Think deeply before acting, do at least 3 iterations of thought with <thinking></thinking> tags before proceeding with a tool. This will help you avoid mistakes and ensure you're on the right track." +:+ nl +:+
  "- by seperating your thoughts from the user's communication you can provide a clear and concise response to the user." +:+ nl +:+
  "- you can use multiple <thinking> tags in a response to show multiple iterations of thought before proceeding with a tool." +:+ nl +:+
  "- you should close your current <thinking> tag before opening a new one or before communicating with the user." +:+ nl +:+
  "- SUPER CRITICAL, you should not ask any questions to the user inside <thinking> tags." +:+ nl +:+
  "- SUPER CRITICAL, you should not communicate with the user inside <thinking> tags." +:+ nl +:+
  "</commiunication-instructions>" +:+ nl +:+
  "When communicating with the user, you should always think first, then act, and then communicate with the user" +:+ nl +:+
  "for example:" +:+ nl +:+
  "<thinking>The user want to build a website, i should first clone repository, then install dependencies, then ask questions about the website design and then start updating the website.</thinking>" +:+ nl +:+
  "<call-to-action title=" +:+ dq +:+ "Bostraping a website" +:+ dq +:+ " level=" +:+ dq +:+ "info" +:+ dq +:+ ">" +:+ nl +:+
  "I'm going to start by cloning a great foundation for the website" +:+ nl +:+
  "</call-to-action>" +:+ nl +:+
  "</communication>" +:+ nl +:+
  nl +:+
  nl.

(** Lines 37-51: the working directory follows the dollar sign of line 41. *)
Definition capabilities (cwd : string) : string :=
  capabilities_head +:+ cwd +:+ capabilities_tail.

(** Lines 52-79: the working directory follows a dollar sign in line 53, in
    line 54 and three times in line 62. *)
Definition rules (cwd : string) : string :=
  rules_52_53 +:+ cwd +:+ rules_53_54 +:+ cwd +:+ rules_54_62 +:+ cwd +:+
  rules_62_a +:+ cwd +:+ rules_62_b +:+ cwd +:+ rules_tail.

(** Lines 143-149. *)
Definition system_info (system shell python_env_path home cwd : string) : string :=
  "<system-info>" +:+ nl +:+
  "Operating System: " +:+ system +:+ nl +:+
  "Default Shell: " +:+ shell +:+ nl +:+
  "Python Environment: " +:+ python_env_path +:+ nl +:+
  "Home Directory: " +:+ home +:+ nl +:+
  "Current Working Directory: " +:+ cwd +:+ nl +:+
  "</system-info>" +:+ nl.

(** The whole literal with its replacement fields filled in. *)
Definition system_prompt_text (cwd system shell python_env_path home : string) : string :=
  preamble +:+ non_negotiables +:+ capabilities cwd +:+ rules cwd +:+
  objective +:+ web_design_guidelines +:+ communication +:+
  system_info system shell python_env_path home cwd.

(** ** [system_prompt] (lines 14-150) *)

(** The expression after [return]: the replacement fields are evaluated from
    left to right, then the pieces are joined. *)
Definition system_prompt_fstring (python_env_path : PyVal) (cwd : string) : Py string :=
  system ← platform_system;
  shell ← os_environ_get "SHELL" (PyStr "Unknown");
  home ← os_path_expanduser_tilde;
  mret (system_prompt_text cwd system (py_format shell) (py_format python_env_path) home).

(** The body of the coroutine, as the event loop runs it when the caller
    awaits [system_prompt()]. *)
Definition system_prompt : Py string :=
  r ← get_python_env_path;
  awaited ← py_await r;
  let python_env_path := py_or awaited (PyStr "") in
  cwd ← os_getcwd;
  system_prompt_fstring python_env_path cwd.

(** ** Vocabulary of the properties *)

(** The value of [os.environ.get(key, default)] on a host. *)
Definition env_get (h : Host) (key : string) (default : PyVal) : PyVal :=
  from_option PyStr default (h_environ h !! key).

(** Fixed pieces with one value between each two of them. *)
Fixpoint interleave (fixed values : list string) : string :=
  match fixed, values with
  | [], _ => ""
  | f :: _, [] => f
  | f :: fixed', v :: values' => f +:+ v +:+ interleave fixed' values'
  end.

(** The twelve runs of fixed text of the literal, in order: before the slot
    of line 41, between the slots of lines 41 and 53, ..., after the slot of
    line 148. *)
Definition fixed_text : list string :=
  [ preamble +:+ non_negotiables +:+ capabilities_head;
    capabilities_tail +:+ rules_52_53;
    rules_53_54;
    rules_54_62;
    rules_62_a;
    rules_62_b;
    rules_tail +:+ objective +:+ web_design_guidelines +:+ communication +:+
      "<system-info>" +:+ nl +:+ "Operating System: ";
    nl +:+ "Default Shell: ";
    nl +:+ "Python Environment: ";
    nl +:+ "Home Directory: ";
    nl +:+ "Current Working Directory: ";
    nl +:+ "</system-info>" +:+ nl ].

(** What fills the eleven slots, in order. *)
Definition slot_values (cwd system shell python_env_path home : string) : list string :=
  [cwd; cwd; cwd; cwd; cwd; cwd; system; shell; python_env_path; home; cwd].

(** The slot values of the document that the [return] of line 18 builds on
    host [h] from the local variables [python_env_path] and [cwd]. *)
Definition rendered_slots (python_env_path : PyVal) (cwd : string) (h : Host) : list string :=
  slot_values cwd (h_system h) (py_format (env_get h "SHELL" (PyStr "Unknown")))
    (py_format python_env_path) (h_home h).

(** [s] occurs in [doc]. *)
Definition occurs_in (s doc : string) : Prop :=
  ∃ before after, doc = before +:+ s +:+ after.

(** [doc] ends with [s]. *)
Fixpoint has_suffix (s doc : string) : bool :=
  String.eqb s doc ||
  match doc with
  | EmptyString => false
  | String _ doc' => has_suffix s doc'
  end.

(** The number of positions of [doc] at which [pat] starts. *)
Fixpoint count_occurrences (pat doc : string) : nat :=
  (if String.prefix pat doc then 1 else 0) +
  match doc with
  | EmptyString => 0
  | String _ doc' => count_occurrences pat doc'
  end.

(** The Adler-32 checksum of a string, from the two running sums [a], [b]. *)
Fixpoint adler32_from (a b : N) (s : string) : N :=
  match s with
  | EmptyString => (b * 65536 + a)%N
  | String c s' =>
      let a' := ((a + N_of_ascii c) mod 65521)%N in
      adler32_from a' ((b + a') mod 65521)%N s'
  end.

Definition adler32 (s : string) : N := adler32_from 1 0 s.

(** The length of a string, as a binary number. *)
Fixpoint length_N (s : string) : N :=
  match s with
  | EmptyString => 0
  | String _ s' => N.succ (length_N s')
  end.

(** The text next to each of the seven places where the working directory is
    rendered: line 41, line 53, line 54, line 62 (three times), line 148. *)
Definition cwd_slot_contexts : list (string * string) :=
  [ ("in the current working directory ('$", "') will be included in potentially_relevant_details.");
    ("- Your current working directory is: $", nl +:+ "- You cannot ");
    ("into a different directory to complete a task. You are stuck operating from '$", "', so be sure to pass in");
    ("outside of the current working directory '$", "', and if so prepend with ");
    ("(as one command since you are stuck operating from '$", "'). For example, if you needed to run ");
    (" in a project outside of '$", "', you would need to prepend with a ");
    ("Current Working Directory: ", nl +:+ "</system-info>" +:+ nl) ].

(** Two hosts on which the five facts read by [system_prompt] are the same. *)
Definition same_facts (h1 h2 : Host) : Prop :=
  h_cwd h1 = h_cwd h2 ∧
  h_system h1 = h_system h2 ∧
  h_environ h1 !! "SHELL" = h_environ h2 !! "SHELL" ∧
  h_environ h1 !! "PYTHON_ENV_PATH" = h_environ h2 !! "PYTHON_ENV_PATH" ∧
  h_home h1 = h_home h2.

(** The host of the scenario: no [SHELL], no [PYTHON_ENV_PATH]. *)
Definition scenario : Host :=
  {| h_environ := ∅; h_cwd := "/proj"; h_system := "Linux"; h_home := "/home/u" |}.

(** Two hosts with the facts of the scenario and different other variables. *)
Definition scenario_with (name value : string) : Host :=
  {| h_environ := {[ name := value ]}; h_cwd := "/proj"; h_system := "Linux";
     h_home := "/home/u" |}.

(** The count of one dollar-sign slot in the capabilities section and four
    in the rules section, read on the sections rendered for [cwd]. *)
Definition dollar_slots_one_and_four (cwd : string) : Prop :=
  count_occurrences ("$" +:+ cwd) (capabilities cwd) = 1 ∧
  count_occurrences ("$" +:+ cwd) (rules cwd) = 4.

(** The runs of text around the seven places of the working directory, once
    the four other facts are filled in. *)
Definition text_around_cwd (system shell python_env_path home : string) : list string :=
  [ preamble +:+ non_negotiables +:+ capabilities_head;
    capabilities_tail +:+ rules_52_53;
    rules_53_54;
    rules_54_62;
    rules_62_a;
    rules_62_b;
    rules_tail +:+ objective +:+ web_design_guidelines +:+ communication +:+
      "<system-info>" +:+ nl +:+
      "Operating System: " +:+ system +:+ nl +:+
      "Default Shell: " +:+ shell +:+ nl +:+
      "Python Environment: " +:+ python_env_path +:+ nl +:+
      "Home Directory: " +:+ home +:+ nl +:+
      "Current Working Directory: ";
    nl +:+ "</system-info>" +:+ nl ].

(** Every character of [s] passes the test [p]. *)
Fixpoint string_forall (p : ascii → bool) (s : string) : bool :=
  match s with
  | EmptyString => true
  | String c s' => p c && string_forall p s'
  end.

(** A character of the seven-bit range. *)
Definition is_ascii (c : ascii) : bool := (N_of_ascii c <? 128)%N.

(** A character other than the two braces that delimit a replacement field. *)
Definition is_not_brace (c : ascii) : bool :=
  negb (Ascii.eqb c "{" || Ascii.eqb c "}").

Definition sum_N (l : list N) : N := foldr N.add 0%N l.

(** The host whose [os.environ] holds [value] under the key [key].  A key is
    a name as [os.environ] stores it: the name itself on POSIX, the
    upper-cased name on Windows.  The names that the code looks up,
    [PYTHON_ENV_PATH] and [SHELL], are their own keys on both. *)
Definition putenv (key value : string) (h : Host) : Host :=
  {| h_environ := <[key := value]> (h_environ h);
     h_cwd := h_cwd h; h_system := h_system h; h_home := h_home h |}.

(** The host whose [os.environ] holds nothing under the key [key]. *)
Definition unsetenv (key : string) (h : Host) : Host :=
  {| h_environ := delete key (h_environ h);
     h_cwd := h_cwd h; h_system := h_system h; h_home := h_home h |}.

(** The host with another answer of [platform.system()]. *)
Definition on_system (system : string) (h : Host) : Host :=
  {| h_environ := h_environ h;
     h_cwd := h_cwd h; h_system := system; h_home := h_home h |}.

(** The host with another answer of [os.getcwd()]. *)
Definition in_directory (cwd : string) (h : Host) : Host :=
  {| h_environ := h_environ h;
     h_cwd := cwd; h_system := h_system h; h_home := h_home h |}.

(** The text that opens the shell line of the system-info section. *)
Definition shell_label : string := nl +:+ "Default Shell: ".

(** The letters a to z in upper case, every other character kept: what
    [str.upper] makes of a name of ASCII characters, and so the key of such a
    name on Windows. *)
Definition upper_ascii_char (c : ascii) : ascii :=
  if (97 <=? N_of_ascii c)%N && (N_of_ascii c <=? 122)%N
  then ascii_of_N (N_of_ascii c - 32)
  else c.

Fixpoint upper_ascii (s : string) : string :=
  match s with
  | EmptyString => EmptyString
  | String c s' => String (upper_ascii_char c) (upper_ascii s')
  end.

(** Whether [name] is a key of [os.environ]. *)
Definition is_set (name : string) (h : Host) : bool :=
  match h_environ h !! name with
  | Some _ => true
  | None => false
  end.

(** * Properties *)

(** ** Strings *)

Lemma string_app_assoc (a b c : string) : (a +:+ b) +:+ c = a +:+ b +:+ c.
Proof.
  induction a as [|x a IH]; [reflexivity|].
  exact (f_equal (String x) IH).
Qed.

Lemma has_suffix_split (s doc : string) :
  has_suffix s doc = true → ∃ front, doc = front +:+ s.
Proof.
  induction doc as [|x doc IH]; simpl; intros H.
  - rewrite orb_false_r in H. apply String.eqb_eq in H. subst s. by exists "".
  - apply orb_true_iff in H as [H|H].
    + apply String.eqb_eq in H. subst s. by exists "".
    + destruct (IH H) as [front ->]. by exists (String x front).
Qed.

Lemma prefix_split (p doc : string) :
  String.prefix p doc = true → ∃ rest, doc = p +:+ rest.
Proof.
  revert doc. induction p as [|x p IH]; intros doc H.
  - by exists doc.
  - destruct doc as [|y doc]; simpl in H; [done|].
    destruct (ascii_dec x y) as [->|]; [|done].
    destruct (IH doc H) as [rest ->]. by exists rest.
Qed.

(** ** Running the computations *)

Lemma os_environ_get_run (key : string) (default : PyVal) (h : Host) (out : list string) :
  os_environ_get key default h out = (Return (env_get h key default), out).
Proof.
  unfold os_environ_get, os_environ_getitem, env_get.
  by destruct (h_environ h !! key).
Qed.

Lemma get_python_env_path_run (h : Host) (out : list string) :
  get_python_env_path h out = (Return (env_get h "PYTHON_ENV_PATH" PyNone), out).
Proof.
  unfold get_python_env_path, try_except.
  by rewrite os_environ_get_run.
Qed.

Lemma system_prompt_run (h : Host) (out : list string) :
  system_prompt h out =
    (Raise (TypeError (not_awaitable (env_get h "PYTHON_ENV_PATH" PyNone))), out).
Proof.
  unfold system_prompt, mbind, Py_bind, py_bind.
  by rewrite get_python_env_path_run.
Qed.

Lemma system_prompt_fstring_run (python_env_path : PyVal) (cwd : string)
    (h : Host) (out : list string) :
  system_prompt_fstring python_env_path cwd h out =
    (Return (system_prompt_text cwd (h_system h)
               (py_format (env_get h "SHELL" (PyStr "Unknown")))
               (py_format python_env_path) (h_home h)), out).
Proof.
  unfold system_prompt_fstring, mbind, Py_bind, py_bind, platform_system.
  by rewrite os_environ_get_run.
Qed.

(** ** The shape of the text *)

Lemma system_prompt_text_slots (cwd system shell python_env_path home : string) :
  system_prompt_text cwd system shell python_env_path home =
    interleave fixed_text (slot_values cwd system shell python_env_path home).
Proof.
  unfold system_prompt_text, capabilities, rules, system_info.
  unfold fixed_text, slot_values, interleave.
  by rewrite !string_app_assoc.
Qed.

Lemma system_prompt_fstring_slots (python_env_path : PyVal) (cwd : string)
    (h : Host) (out : list string) :
  system_prompt_fstring python_env_path cwd h out =
    (Return (interleave fixed_text (rendered_slots python_env_path cwd h)), out).
Proof.
  rewrite system_prompt_fstring_run. unfold rendered_slots.
  by rewrite system_prompt_text_slots.
Qed.

Example system_prompt_text_size :
  length_N (system_prompt_text "" "" "" "" "") = 19799%N.
Proof. vm_compute. reflexivity. Qed.

Example system_prompt_text_scenario_size :
  length_N (system_prompt_text "/proj" "Linux" "Unknown" "" "/home/u") = 19853%N.
Proof. vm_compute. reflexivity. Qed.

(** The checksum of the literal of lines 18-150 of the source file, with
    each replacement field taken out (braces included). *)
Example system_prompt_text_adler32 :
  adler32 (system_prompt_text "" "" "" "" "") = 53864893%N.
Proof. vm_compute. reflexivity. Qed.

Example get_python_env_path_unset :
  get_python_env_path scenario [] = (Return PyNone, []).
Proof. reflexivity. Qed.

Example get_python_env_path_set :
  get_python_env_path (scenario_with "PYTHON_ENV_PATH" "/venv/bin/python") [] =
    (Return (PyStr "/venv/bin/python"), []).
Proof. vm_compute. reflexivity. Qed.

Example system_prompt_interpreter_path_set :
  system_prompt (scenario_with "PYTHON_ENV_PATH" "/venv/bin/python") [] =
    (Raise (TypeError "object str can't be used in 'await' expression"), []).
Proof. vm_compute. reflexivity. Qed.

Example py_repr_plain : exc_str (KeyError "PYTHON_ENV_PATH") = "'PYTHON_ENV_PATH'".
Proof. reflexivity. Qed.

Example py_repr_single_quote : py_repr "it's" = dq +:+ "it's" +:+ dq.
Proof. reflexivity. Qed.

Example py_repr_both_quotes :
  py_repr ("it's " +:+ dq +:+ "x" +:+ dq) = "'it\'s " +:+ dq +:+ "x" +:+ dq +:+ "'".
Proof. reflexivity. Qed.

Example py_repr_control :
  py_repr ("a" +:+ nl +:+ tab +:+ String "001" (String "127" "\")) = "'a\n\t\x01\x7f\\'".
Proof. reflexivity. Qed.

Example system_info_scenario :
  system_info "Linux" "Unknown" "" "/home/u" "/proj" =
    "<system-info>" +:+ nl +:+
    "Operating System: Linux" +:+ nl +:+
    "Default Shell: Unknown" +:+ nl +:+
    "Python Environment: " +:+ nl +:+
    "Home Directory: /home/u" +:+ nl +:+
    "Current Working Directory: /proj" +:+ nl +:+
    "</system-info>" +:+ nl.
Proof. reflexivity. Qed.

(** A value rendered between two fixed runs has the end of the one on its
    left and the start of the one on its right. *)
Lemma interleave_slot (k : nat) (fixed values : list string) (f g v l r : string) :
  fixed !! k = Some f → fixed !! S k = Some g → values !! k = Some v →
  has_suffix l f = true → String.prefix r g = true →
  occurs_in (l +:+ v +:+ r) (interleave fixed values).
Proof.
  revert fixed values.
  induction k as [|k IH]; intros fixed values Hf Hg Hv Hl Hr.
  - destruct fixed as [|f0 [|g0 fixed]], values as [|v0 values]; simplify_eq/=.
    destruct (has_suffix_split _ _ Hl) as [front ->].
    destruct (prefix_split _ _ Hr) as [rest ->].
    destruct values as [|v1 values].
    + exists front, rest. by rewrite !string_app_assoc.
    + exists front, (rest +:+ v1 +:+ interleave fixed values).
      by rewrite !string_app_assoc.
  - destruct fixed as [|f0 fixed], values as [|v0 values]; simplify_eq/=.
    destruct (IH fixed values Hf Hg Hv Hl Hr) as (before & after & ->).
    exists (f0 +:+ v0 +:+ before), after. by rewrite !string_app_assoc.
Qed.

(** With one value between each two fixed runs, the text ends as the last
    run does. *)
Lemma interleave_ends (fixed values : list string) (g s : string) :
  length fixed = S (length values) → last fixed = Some g →
  has_suffix s g = true → ∃ front, interleave fixed values = front +:+ s.
Proof.
  revert values.
  induction fixed as [|f fixed IH]; intros values Hlen Hlast Hs; [done|].
  destruct values as [|v values].
  - destruct fixed; simplify_eq/=. by apply has_suffix_split.
  - destruct fixed as [|f' fixed]; simplify_eq/=.
    destruct (IH values) as [front Hfront]; [by f_equal|done|done|].
    exists (f +:+ v +:+ front). simpl in Hfront. rewrite Hfront.
    by rewrite !string_app_assoc.
Qed.

(** The value of slot [k] of a text given by [interleave], between the end
    [l] of the run before it and the start [r] of the run after it. *)
Ltac slot k :=
  eapply (interleave_slot k); [reflexivity..|by vm_compute|by vm_compute].

Lemma py_print_extends (args : list string) (h : Host) (out : list string) :
  snd (py_print args h out) ≠ out.
Proof.
  unfold py_print. simpl. intros H.
  apply (f_equal length) in H. rewrite length_app in H. simpl in H. lia.
Qed.

Lemma system_prompt_text_cwd_slots (cwd system shell python_env_path home : string) :
  system_prompt_text cwd system shell python_env_path home =
    interleave (text_around_cwd system shell python_env_path home) (replicate 7 cwd).
Proof.
  unfold system_prompt_text, capabilities, rules, system_info.
  unfold text_around_cwd, replicate, interleave.
  by rewrite !string_app_assoc.
Qed.

Lemma system_prompt_no_document (h : Host) (out : list string) (doc : string) :
  fst (system_prompt h out) ≠ Return doc.
Proof. by rewrite system_prompt_run. Qed.

(** ** The specification, claim by claim *)

(** C1 (fails on the code).  The claim: composing never fails, every call of
    [system_prompt] returns the document and its caller sees no error.  The
    code: on every host the call raises [TypeError] at line 15, where the
    plain value returned by [get_python_env_path] is awaited; no document is
    returned and nothing is logged. *)
Theorem system_prompt_never_returns (h : Host) (out : list string) :
  (∃ v, fst (get_python_env_path h out) = Return v ∧
        fst (system_prompt h out) = Raise (TypeError (not_awaitable v))) ∧
  (∀ doc, fst (system_prompt h out) ≠ Return doc) ∧
  snd (system_prompt h out) = out.
Proof.
  rewrite system_prompt_run, get_python_env_path_run. simpl.
  split; [by eexists|]. by split.
Qed.

(** C2 (fails on the code).  The claim: with working directory [/proj],
    system [Linux], no shell, no interpreter path and home [/home/u], the
    document has [/proj] at each working-directory slot, [Linux], [Unknown],
    the empty string and [/home/u] at theirs.  The code: the call raises
    [TypeError] on awaiting [None]; the f-string of line 18, given the values
    that line 15 was to compute, is that document. *)
Theorem scenario_proj_linux_aborts :
  system_prompt scenario [] =
    (Raise (TypeError "object NoneType can't be used in 'await' expression"), []) ∧
  system_prompt_fstring (py_or PyNone (PyStr "")) "/proj" scenario [] =
    (Return (interleave fixed_text
               ["/proj"; "/proj"; "/proj"; "/proj"; "/proj"; "/proj";
                "Linux"; "Unknown"; ""; "/home/u"; "/proj"]), []).
Proof.
  split.
  - by rewrite system_prompt_run.
  - by rewrite system_prompt_fstring_slots.
Qed.

(** C3 (fails on the code).  The claim: any two composed documents agree
    outside the slots of the five facts, and differ only at the
    working-directory slots when only the working directory differs.  The
    code: the text built at line 18 is always the twelve runs of [fixed_text]
    with the eleven slot values between them, and for a given host and
    interpreter path it is eight runs around seven copies of the working
    directory; but neither call returns that text. *)
Theorem fixed_text_outside_slots (python_env_path1 python_env_path2 : PyVal)
    (cwd1 cwd2 : string) (h1 h2 : Host) (out1 out2 : list string) :
  fst (system_prompt_fstring python_env_path1 cwd1 h1 out1) =
    Return (interleave fixed_text (rendered_slots python_env_path1 cwd1 h1)) ∧
  fst (system_prompt_fstring python_env_path2 cwd2 h2 out2) =
    Return (interleave fixed_text (rendered_slots python_env_path2 cwd2 h2)) ∧
  (∃ around, length around = 8 ∧
     fst (system_prompt_fstring python_env_path1 cwd1 h1 out1) =
       Return (interleave around (replicate 7 cwd1)) ∧
     fst (system_prompt_fstring python_env_path1 cwd2 h1 out2) =
       Return (interleave around (replicate 7 cwd2))) ∧
  (∀ doc, fst (system_prompt h1 out1) ≠ Return doc) ∧
  (∀ doc, fst (system_prompt h2 out2) ≠ Return doc).
Proof.
  rewrite !system_prompt_fstring_slots. cbn [fst].
  split; [done|]. split; [done|]. split.
  - exists (text_around_cwd (h_system h1)
              (py_format (env_get h1 "SHELL" (PyStr "Unknown")))
              (py_format python_env_path1) (h_home h1)).
    split; [done|]. unfold rendered_slots.
    by rewrite <- !system_prompt_text_slots, !system_prompt_text_cwd_slots.
  - split; intros doc; apply system_prompt_no_document.
Qed.

(** C4 (fails on the code).  The claim: two calls of [system_prompt] with the
    same working directory, system, shell, interpreter path and home yield
    the same output, and nothing else in the process bears on it.  The code:
    neither call yields an output, both raise [TypeError] at line 15.  They
    do end alike, whatever else differs in the process, and leave standard
    output as it was, and the text built at line 18 depends on these facts
    alone. *)
Theorem system_prompt_depends_on_facts_only (h1 h2 : Host) (out1 out2 : list string) :
  same_facts h1 h2 →
  (∀ doc, fst (system_prompt h1 out1) ≠ Return doc) ∧
  (∀ doc, fst (system_prompt h2 out2) ≠ Return doc) ∧
  fst (system_prompt h1 out1) = fst (system_prompt h2 out2) ∧
  snd (system_prompt h1 out1) = out1 ∧
  (∀ python_env_path,
     fst (system_prompt_fstring python_env_path (h_cwd h1) h1 out1) =
     fst (system_prompt_fstring python_env_path (h_cwd h2) h2 out2)).
Proof.
  intros (Hcwd & Hsys & Hshell & Hpy & Hhome).
  split; [intros doc; apply system_prompt_no_document|].
  split; [intros doc; apply system_prompt_no_document|].
  rewrite !system_prompt_run. unfold env_get. rewrite Hpy.
  split; [done|]. split; [done|]. intros python_env_path.
  rewrite !system_prompt_fstring_run. unfold env_get.
  by rewrite Hcwd, Hsys, Hshell, Hhome.
Qed.

Lemma system_prompt_depends_on_facts_only_witness :
  same_facts (scenario_with "PATH" "/usr/bin") (scenario_with "LANG" "C") ∧
  (∀ doc, fst (system_prompt (scenario_with "PATH" "/usr/bin") []) ≠ Return doc) ∧
  (∀ doc, fst (system_prompt (scenario_with "LANG" "C") ["earlier output"]) ≠ Return doc).
Proof.
  assert (H : same_facts (scenario_with "PATH" "/usr/bin") (scenario_with "LANG" "C")).
  { repeat split; vm_compute; reflexivity. }
  split; [exact H|].
  destruct (system_prompt_depends_on_facts_only _ _ [] ["earlier output"] H)
    as (Hno1 & Hno2 & _).
  split; [exact Hno1|exact Hno2].
Defined.

(** C5 (fails on the code).  The claim: the document has the working
    directory, as it is, at every place where the template asks for it.  The
    code: the text built at line 18 has [cwd] whole between the fixed text on
    its left and on its right at each of the seven places, for every [cwd];
    but the call raises before line 18 and returns no document. *)
Theorem working_directory_verbatim (python_env_path : PyVal) (cwd : string)
    (h : Host) (out : list string) :
  (∃ doc, system_prompt_fstring python_env_path cwd h out = (Return doc, out) ∧
     Forall (λ ctx : string * string, occurs_in (ctx.1 +:+ cwd +:+ ctx.2) doc)
       cwd_slot_contexts) ∧
  (∀ doc, fst (system_prompt h out) ≠ Return doc).
Proof.
  split; [|intros doc; apply system_prompt_no_document].
  eexists. split; [apply system_prompt_fstring_slots|].
  unfold cwd_slot_contexts.
  repeat apply Forall_cons_2; [..|apply Forall_nil_2]; cbn [fst snd].
  - slot 0.
  - slot 1.
  - slot 2.
  - slot 3.
  - slot 4.
  - slot 5.
  - slot 10.
Qed.

(** C6 (fails on the code).  The claim: with [PYTHON_ENV_PATH] unset the
    interpreter-path field becomes the empty string and nothing is raised.
    The code: [get_python_env_path] returns [None] without raising and
    [None or ""] is the empty string, but between the two line 15 awaits
    [None], which raises [TypeError]. *)
Theorem interpreter_path_unset_raises (h : Host) (out : list string) :
  h_environ h !! "PYTHON_ENV_PATH" = None →
  get_python_env_path h out = (Return PyNone, out) ∧
  py_or PyNone (PyStr "") = PyStr "" ∧
  system_prompt h out =
    (Raise (TypeError "object NoneType can't be used in 'await' expression"), out).
Proof.
  intros Hunset.
  rewrite system_prompt_run, get_python_env_path_run.
  unfold env_get. by rewrite Hunset.
Qed.

Lemma interpreter_path_unset_raises_witness :
  h_environ scenario !! "PYTHON_ENV_PATH" = None ∧
  system_prompt scenario [] =
    (Raise (TypeError "object NoneType can't be used in 'await' expression"), []).
Proof.
  assert (H : h_environ scenario !! "PYTHON_ENV_PATH" = None) by reflexivity.
  split; [exact H|].
  exact (proj2 (proj2 (interpreter_path_unset_raises scenario [] H))).
Defined.

(** C7 (fails on the code).  The claim: with [SHELL] unset the shell field is
    the literal [Unknown] and the document has it at the shell slot.  The
    code: the lookup of line 145 yields [Unknown] and the text built at line
    18 has it after [Default Shell: ]; but the call raises at line 15, line
    145 is not reached and no document is returned. *)
Theorem shell_unset_unknown (python_env_path : PyVal) (cwd : string)
    (h : Host) (out : list string) :
  h_environ h !! "SHELL" = None →
  os_environ_get "SHELL" (PyStr "Unknown") h out = (Return (PyStr "Unknown"), out) ∧
  (∃ doc, system_prompt_fstring python_env_path cwd h out = (Return doc, out) ∧
     occurs_in ("Default Shell: " +:+ "Unknown" +:+ nl) doc) ∧
  (∀ doc, fst (system_prompt h out) ≠ Return doc).
Proof.
  intros Hunset.
  assert (Hget : env_get h "SHELL" (PyStr "Unknown") = PyStr "Unknown").
  { unfold env_get. by rewrite Hunset. }
  split; [by rewrite os_environ_get_run, Hget|].
  split; [|intros doc; apply system_prompt_no_document].
  eexists. split; [apply system_prompt_fstring_slots|].
  unfold rendered_slots. rewrite Hget.
  slot 7.
Qed.

Lemma shell_unset_unknown_witness :
  h_environ scenario !! "SHELL" = None ∧
  os_environ_get "SHELL" (PyStr "Unknown") scenario [] = (Return (PyStr "Unknown"), []).
Proof.
  assert (H : h_environ scenario !! "SHELL" = None) by reflexivity.
  split; [exact H|].
  exact (proj1 (shell_unset_unknown (PyStr "") "/proj" scenario [] H)).
Defined.

(** C8.  The [except] clause of [get_python_env_path] is never entered: on
    every host [os.environ.get("PYTHON_ENV_PATH", None)] returns, and the
    function returns that value, the variable's value or [None], leaving
    standard output as it was, whereas the clause would have printed. *)
Theorem get_python_env_path_except_dead (h : Host) (out : list string) :
  (∀ e, fst (os_environ_get "PYTHON_ENV_PATH" PyNone h out) ≠ Raise e) ∧
  get_python_env_path h out = os_environ_get "PYTHON_ENV_PATH" PyNone h out ∧
  fst (get_python_env_path h out) =
    Return (from_option PyStr PyNone (h_environ h !! "PYTHON_ENV_PATH")) ∧
  snd (get_python_env_path h out) = out ∧
  (∀ error, snd (get_python_env_path_except error h out) ≠ out).
Proof.
  rewrite get_python_env_path_run, os_environ_get_run. cbn [fst snd].
  repeat split; try done.
  intros error. apply py_print_extends.
Qed.

(** C9 (the count of the claim fails).  With working directory [/proj] the
    rules section renders [$/proj] five times, not four. *)
Lemma dollar_slots_not_one_and_four : ¬ dollar_slots_one_and_four "/proj".
Proof.
  unfold dollar_slots_one_and_four. intros [_ H].
  vm_compute in H. discriminate H.
Qed.

(** C9, amended.  The text built at line 18 is the fixed runs with the slot
    values between them.  The six runs before the slots written [${cwd}] end
    with a dollar sign, so each of these slots reads as a dollar sign and the
    working directory; the run before the slot of line 148 ends with
    [Current Working Directory: ], without a dollar sign.  The tags place the
    first of the six slots in the capabilities section and the other five in
    the rules section, and the last slot in the system-info section. *)
Theorem dollar_slots_one_and_five (cwd system shell python_env_path home : string) :
  system_prompt_text cwd system shell python_env_path home =
    interleave fixed_text (slot_values cwd system shell python_env_path home) ∧
  map (has_suffix "$") fixed_text =
    [true; true; true; true; true; true; false; false; false; false; false; false] ∧
  (∃ run, fixed_text !! 10 = Some run ∧ has_suffix "Current Working Directory: " run = true) ∧
  map (count_occurrences "<capbilities>") fixed_text = [1; 0; 0; 0; 0; 0; 0; 0; 0; 0; 0; 0] ∧
  map (count_occurrences "</capbilities>") fixed_text = [0; 1; 0; 0; 0; 0; 0; 0; 0; 0; 0; 0] ∧
  map (count_occurrences "<rules>") fixed_text = [0; 1; 0; 0; 0; 0; 0; 0; 0; 0; 0; 0] ∧
  map (count_occurrences "</rules>") fixed_text = [0; 0; 0; 0; 0; 0; 1; 0; 0; 0; 0; 0] ∧
  map (count_occurrences "<system-info>") fixed_text = [0; 0; 0; 0; 0; 0; 1; 0; 0; 0; 0; 0] ∧
  map (count_occurrences "</system-info>") fixed_text = [0; 0; 0; 0; 0; 0; 0; 0; 0; 0; 0; 1] ∧
  count_occurrences "$/proj" (capabilities "/proj") = 1 ∧
  count_occurrences "$/proj" (rules "/proj") = 5.
Proof.
  split; [apply system_prompt_text_slots|].
  split; [by vm_compute|].
  split; [eexists; split; [reflexivity|by vm_compute]|].
  repeat split; by vm_compute.
Qed.

(** C10 (fails on the code).  The claim: whatever the facts, the returned
    string starts with two line breaks and ends with one.  The code: the text
    built at line 18 starts with two line breaks and the first words of the
    preamble, and ends with the closing tag of the system-info section and a
    line break, for all facts; but the call raises at line 15 and returns no
    string. *)
Theorem framing_newlines (python_env_path : PyVal) (cwd : string)
    (h : Host) (out : list string) :
  (∃ doc, system_prompt_fstring python_env_path cwd h out = (Return doc, out) ∧
     String.prefix (nl +:+ nl +:+ "You are Kodu.AI") doc = true ∧
     ∃ front, doc = front +:+ "</system-info>" +:+ nl) ∧
  (∀ doc, fst (system_prompt h out) ≠ Return doc).
Proof.
  split; [|intros doc; apply system_prompt_no_document].
  eexists. split; [apply system_prompt_fstring_slots|]. split.
  - by vm_compute.
  - eapply interleave_ends; [reflexivity|reflexivity|by vm_compute].
Qed.

(** * Further properties of the code *)

(** ** Lengths and characters of a text with slots *)

Lemma length_N_app (a b : string) :
  length_N (a +:+ b) = (length_N a + length_N b)%N.
Proof.
  induction a as [|x a IH].
  - change (length_N b = (0 + length_N b)%N). lia.
  - change (N.succ (length_N (a +:+ b)) = (N.succ (length_N a) + length_N b)%N).
    rewrite IH. lia.
Qed.

Lemma length_N_interleave (fixed values : list string) :
  length fixed = S (length values) →
  length_N (interleave fixed values) =
    (sum_N (length_N <$> fixed) + sum_N (length_N <$> values))%N.
Proof.
  revert values. induction fixed as [|f fixed IH]; intros values Hlen; [done|].
  destruct values as [|v values].
  - destruct fixed; [|simpl in Hlen; lia]. unfold sum_N. simpl. lia.
  - destruct fixed as [|f' fixed]; [simpl in Hlen; lia|].
    assert (IH' := IH values ltac:(simpl in *; lia)).
    change (length_N (f +:+ v +:+ interleave (f' :: fixed) values) =
            (sum_N (length_N <$> f :: f' :: fixed) + sum_N (length_N <$> v :: values))%N).
    rewrite !length_N_app, IH'. unfold sum_N. rewrite !fmap_cons. cbn [foldr]. lia.
Qed.

Lemma string_forall_app (p : ascii → bool) (a b : string) :
  string_forall p (a +:+ b) = string_forall p a && string_forall p b.
Proof.
  induction a as [|x a IH]; [done|].
  change (p x && string_forall p (a +:+ b) = p x && string_forall p a && string_forall p b).
  rewrite IH. by destruct (p x).
Qed.

Lemma string_forall_interleave (p : ascii → bool) (fixed values : list string) :
  length fixed = S (length values) →
  string_forall p (interleave fixed values) =
    forallb (string_forall p) fixed && forallb (string_forall p) values.
Proof.
  revert values. induction fixed as [|f fixed IH]; intros values Hlen; [done|].
  destruct values as [|v values].
  - destruct fixed; [|simpl in Hlen; lia]. simpl. by rewrite !andb_true_r.
  - destruct fixed as [|f' fixed]; [simpl in Hlen; lia|].
    assert (IH' := IH values ltac:(simpl in *; lia)).
    change (string_forall p (f +:+ v +:+ interleave (f' :: fixed) values) =
            forallb (string_forall p) (f :: f' :: fixed) &&
            forallb (string_forall p) (v :: values)).
    rewrite !string_forall_app, IH'.
    change (forallb (string_forall p) (f :: f' :: fixed)) with
      (string_forall p f && forallb (string_forall p) (f' :: fixed)).
    change (forallb (string_forall p) (v :: values)) with
      (string_forall p v && forallb (string_forall p) values).
    destruct (string_forall p f), (string_forall p v),
      (forallb (string_forall p) (f' :: fixed)); done.
Qed.

(** Two texts that start with strings of one length and are equal start with
    the same string. *)
Lemma app_inj_length (a b x y : string) :
  length_N a = length_N b → a +:+ x = b +:+ y → a = b.
Proof.
  revert b. induction a as [|c a IH]; intros [|d b] Hlen Heq; simpl in Hlen.
  - done.
  - lia.
  - lia.
  - injection Heq as -> Heq. f_equal. apply IH; [lia|done].
Qed.

Lemma fixed_text_size : sum_N (length_N <$> fixed_text) = 19799%N.
Proof. by vm_compute. Qed.

Lemma Return_inj {A : Type} (a b : A) : Return a = Return b → a = b.
Proof. by intros [= ->]. Qed.

Lemma fixed_text_is_ascii : forallb (string_forall is_ascii) fixed_text = true.
Proof. by vm_compute. Qed.

Lemma fixed_text_has_no_brace : forallb (string_forall is_not_brace) fixed_text = true.
Proof. by vm_compute. Qed.

(** ** The text built at line 18 *)

(** X1.  The text of line 18 is 19799 characters of fixed text plus the
    lengths of what fills the slots: the working directory counts seven
    times, each other value once. *)
Theorem system_prompt_fstring_length (python_env_path : PyVal) (cwd : string)
    (h : Host) (out : list string) :
  ∃ doc, system_prompt_fstring python_env_path cwd h out = (Return doc, out) ∧
    length_N doc =
      (19799 + 7 * length_N cwd + length_N (h_system h) +
       length_N (py_format (env_get h "SHELL" (PyStr "Unknown"))) +
       length_N (py_format python_env_path) + length_N (h_home h))%N.
Proof.
  eexists. split; [apply system_prompt_fstring_slots|].
  rewrite length_N_interleave by done.
  rewrite fixed_text_size. unfold rendered_slots, slot_values, sum_N.
  rewrite !fmap_cons. cbn [foldr fmap list_fmap]. lia.
Qed.

(** X2.  On one host and with one interpreter path, two different working
    directories give two different texts. *)
Theorem system_prompt_fstring_cwd_inj (python_env_path : PyVal) (cwd1 cwd2 : string)
    (h : Host) (out1 out2 : list string) :
  cwd1 ≠ cwd2 →
  fst (system_prompt_fstring python_env_path cwd1 h out1) ≠
  fst (system_prompt_fstring python_env_path cwd2 h out2).
Proof.
  intros Hne Heq. apply Hne. clear Hne.
  rewrite !system_prompt_fstring_run in Heq. cbn [fst] in Heq.
  apply Return_inj in Heq.
  assert (Hlen : length_N cwd1 = length_N cwd2).
  { apply (f_equal length_N) in Heq.
    rewrite !system_prompt_text_cwd_slots in Heq.
    rewrite !length_N_interleave in Heq by done.
    unfold sum_N in Heq. rewrite !fmap_replicate in Heq.
    cbn [replicate foldr] in Heq. lia. }
  rewrite !system_prompt_text_cwd_slots in Heq.
  unfold text_around_cwd, replicate, interleave in Heq.
  apply (inj (String.app _)) in Heq.
  by apply (app_inj_length _ _ _ _ Hlen Heq).
Qed.

Lemma system_prompt_fstring_cwd_inj_witness :
  "/proj" ≠ "/proj/src" ∧
  fst (system_prompt_fstring (PyStr "") "/proj" scenario []) ≠
  fst (system_prompt_fstring (PyStr "") "/proj/src" scenario []).
Proof.
  assert (H : "/proj" ≠ "/proj/src") by discriminate.
  split; [exact H|].
  exact (system_prompt_fstring_cwd_inj (PyStr "") "/proj" "/proj/src" scenario [] [] H).
Defined.

Lemma shell_label_splits (a b : string) : a +:+ shell_label +:+ b ≠ a.
Proof.
  intros Heq. apply (f_equal length_N) in Heq.
  rewrite !length_N_app in Heq.
  assert (Hlabel : length_N shell_label = 16%N) by reflexivity.
  lia.
Qed.

(** X3.  The values are put into the text as they are, nothing marks where
    one ends: a system name that holds a line break and the words
    [Default Shell: ] gives the very text that a shorter system name and a
    longer shell give, though the hosts differ. *)
Theorem system_prompt_fstring_fields_unmarked (a b c : string)
    (python_env_path : PyVal) (cwd : string) (h : Host) (out : list string) :
  h_system (putenv "SHELL" c (on_system (a +:+ shell_label +:+ b) h)) ≠
  h_system (putenv "SHELL" (b +:+ shell_label +:+ c) (on_system a h)) ∧
  system_prompt_fstring python_env_path cwd
    (putenv "SHELL" c (on_system (a +:+ shell_label +:+ b) h)) out =
  system_prompt_fstring python_env_path cwd
    (putenv "SHELL" (b +:+ shell_label +:+ c) (on_system a h)) out.
Proof.
  split; [apply shell_label_splits|].
  rewrite !system_prompt_fstring_run. unfold env_get, putenv, on_system.
  cbn [h_environ h_system h_home]. rewrite !lookup_insert_eq.
  cbn [from_option py_format].
  unfold system_prompt_text, system_info, shell_label.
  by rewrite !string_app_assoc.
Qed.

(** X4.  The text of line 18 is made of seven-bit characters exactly when the
    working directory, the system name, the shell, the interpreter path and
    the home directory are: the fixed text has no other character. *)
Theorem system_prompt_fstring_ascii (python_env_path : PyVal) (cwd : string)
    (h : Host) (out : list string) :
  ∃ doc, system_prompt_fstring python_env_path cwd h out = (Return doc, out) ∧
    string_forall is_ascii doc =
      string_forall is_ascii cwd &&
      string_forall is_ascii (h_system h) &&
      string_forall is_ascii (py_format (env_get h "SHELL" (PyStr "Unknown"))) &&
      string_forall is_ascii (py_format python_env_path) &&
      string_forall is_ascii (h_home h).
Proof.
  eexists. split; [apply system_prompt_fstring_slots|].
  rewrite string_forall_interleave by done.
  rewrite fixed_text_is_ascii. unfold rendered_slots, slot_values.
  cbn [forallb andb].
  destruct (string_forall is_ascii cwd), (string_forall is_ascii (h_system h)),
    (string_forall is_ascii (py_format (env_get h "SHELL" (PyStr "Unknown")))),
    (string_forall is_ascii (py_format python_env_path)),
    (string_forall is_ascii (h_home h)); done.
Qed.

(** X5.  No replacement field is left in the text of line 18: it has a brace
    only where one of the five values has one. *)
Theorem system_prompt_fstring_braces (python_env_path : PyVal) (cwd : string)
    (h : Host) (out : list string) :
  ∃ doc, system_prompt_fstring python_env_path cwd h out = (Return doc, out) ∧
    string_forall is_not_brace doc =
      string_forall is_not_brace cwd &&
      string_forall is_not_brace (h_system h) &&
      string_forall is_not_brace (py_format (env_get h "SHELL" (PyStr "Unknown"))) &&
      string_forall is_not_brace (py_format python_env_path) &&
      string_forall is_not_brace (h_home h).
Proof.
  eexists. split; [apply system_prompt_fstring_slots|].
  rewrite string_forall_interleave by done.
  rewrite fixed_text_has_no_brace. unfold rendered_slots, slot_values.
  cbn [forallb andb].
  destruct (string_forall is_not_brace cwd), (string_forall is_not_brace (h_system h)),
    (string_forall is_not_brace (py_format (env_get h "SHELL" (PyStr "Unknown")))),
    (string_forall is_not_brace (py_format python_env_path)),
    (string_forall is_not_brace (h_home h)); done.
Qed.

(** X8.  When [SHELL] is set, its value is rendered after [Default Shell: ]
    as it is, the empty string included: the word [Unknown] is for the
    missing variable only. *)
Theorem shell_set_rendered_as_is (value : string) (python_env_path : PyVal)
    (cwd : string) (h : Host) (out : list string) :
  h_environ h !! "SHELL" = Some value →
  os_environ_get "SHELL" (PyStr "Unknown") h out = (Return (PyStr value), out) ∧
  ∃ doc, system_prompt_fstring python_env_path cwd h out = (Return doc, out) ∧
    occurs_in ("Default Shell: " +:+ value +:+ nl) doc.
Proof.
  intros Hset.
  assert (Hget : env_get h "SHELL" (PyStr "Unknown") = PyStr value).
  { unfold env_get. by rewrite Hset. }
  split; [by rewrite os_environ_get_run, Hget|].
  eexists. split; [apply system_prompt_fstring_slots|].
  unfold rendered_slots. rewrite Hget.
  slot 7.
Qed.

Lemma shell_set_rendered_as_is_witness :
  h_environ (scenario_with "SHELL" "") !! "SHELL" = Some "" ∧
  ∃ doc, system_prompt_fstring (PyStr "") "/proj" (scenario_with "SHELL" "") [] =
           (Return doc, []) ∧
    occurs_in ("Default Shell: " +:+ "" +:+ nl) doc.
Proof.
  assert (H : h_environ (scenario_with "SHELL" "") !! "SHELL" = Some "")
    by (vm_compute; reflexivity).
  split; [exact H|].
  exact (proj2 (shell_set_rendered_as_is "" (PyStr "") "/proj"
                  (scenario_with "SHELL" "") [] H)).
Defined.

(** ** [get_python_env_path] and the call of [system_prompt] *)

(** X6.  [get_python_env_path] reads what [os.environ] holds under the key
    [PYTHON_ENV_PATH] and nothing else.  Let [encodekey] give the key of a
    name (the name itself on POSIX, the upper-cased name on Windows).  Once a
    value is stored for a name, the function returns that value, the empty
    string included, if the key of the name is [PYTHON_ENV_PATH], and what it
    returned before otherwise; once the entry of a name is removed it returns
    [None], and what it returned before otherwise. *)
Theorem get_python_env_path_reads_one_variable (encodekey : string → string)
    (name value : string) (h : Host) (out : list string) :
  get_python_env_path (putenv (encodekey name) value h) out =
    (if decide (encodekey name = "PYTHON_ENV_PATH")
     then (Return (PyStr value), out)
     else get_python_env_path h out) ∧
  get_python_env_path (unsetenv (encodekey name) h) out =
    (if decide (encodekey name = "PYTHON_ENV_PATH")
     then (Return PyNone, out)
     else get_python_env_path h out).
Proof.
  rewrite !get_python_env_path_run.
  unfold env_get, putenv, unsetenv. cbn [h_environ].
  rewrite lookup_insert, lookup_delete.
  by destruct (decide (encodekey name = "PYTHON_ENV_PATH")).
Qed.

(** With the keys of Windows, a name in lower case sets the variable. *)
Example get_python_env_path_name_in_lower_case :
  get_python_env_path (putenv (upper_ascii "python_env_path") "/venv" scenario) [] =
    (Return (PyStr "/venv"), []).
Proof. by vm_compute. Qed.

(** With the keys of POSIX, it is another variable. *)
Example get_python_env_path_name_in_lower_case_posix :
  get_python_env_path (putenv (id "python_env_path") "/venv" scenario) [] =
    (Return PyNone, []).
Proof. by vm_compute. Qed.

(** X7.  What a call of [system_prompt] does depends on one thing, whether
    [PYTHON_ENV_PATH] is set: neither the value of the variable nor the
    working directory, the system, the shell or the home directory reaches
    the caller. *)
Theorem system_prompt_outcome_by_presence (h1 h2 : Host) (out : list string) :
  is_set "PYTHON_ENV_PATH" h1 = is_set "PYTHON_ENV_PATH" h2 →
  system_prompt h1 out = system_prompt h2 out.
Proof.
  unfold is_set. intros Hset. rewrite !system_prompt_run. unfold env_get.
  by destruct (h_environ h1 !! "PYTHON_ENV_PATH"), (h_environ h2 !! "PYTHON_ENV_PATH").
Qed.

Lemma system_prompt_outcome_by_presence_witness :
  is_set "PYTHON_ENV_PATH" (putenv "PYTHON_ENV_PATH" "/venv/bin/python" scenario) =
  is_set "PYTHON_ENV_PATH"
    (in_directory "/tmp" (on_system "Darwin" (putenv "PYTHON_ENV_PATH" "/usr/bin/python3" scenario))) ∧
  system_prompt (putenv "PYTHON_ENV_PATH" "/venv/bin/python" scenario) [] =
  system_prompt
    (in_directory "/tmp" (on_system "Darwin" (putenv "PYTHON_ENV_PATH" "/usr/bin/python3" scenario))) [].
Proof.
  assert (H : is_set "PYTHON_ENV_PATH" (putenv "PYTHON_ENV_PATH" "/venv/bin/python" scenario) =
              is_set "PYTHON_ENV_PATH"
                (in_directory "/tmp" (on_system "Darwin"
                   (putenv "PYTHON_ENV_PATH" "/usr/bin/python3" scenario))))
    by (vm_compute; reflexivity).
  split; [exact H|].
  exact (system_prompt_outcome_by_presence _ _ [] H).
Defined.
